(** * Engineering unit converter (converter.py)

    A shallow embedding of the three conversion functions of
    [converter.py] -- [convert_pressure], [convert_temperature] and
    [convert_flow] -- together with the properties stated about them.

    The functions are written once, over an interface [Num] of the
    arithmetic they use.  Two instances are given:

    - [float_Num]: IEEE 754 binary64 with round-to-nearest-even, the
      arithmetic of Python's [float]; this is what the program runs;
    - [Qc_Num]: exact rational arithmetic, the reading in which rounding
      and overflow are ignored.

    The value converted is a float, as the command line supplies it
    ([type=float]); the small integers of the self-test convert to the
    same floats.  Strings are sequences of code points below 256 (the
    Latin-1 range of Python's [str]); [lower] is [str.lower] on that
    range. *)

From Stdlib Require Import ZArith QArith Qcanon Qabs Bool List Lia.
From Stdlib Require Import Ascii String.
From Stdlib Require Import PrimFloat FloatOps SpecFloat Uint63.
Import ListNotations.

Local Open Scope string_scope.
Set Warnings "-inexact-float".

(** ** Python strings *)

Module PyStr.

(** Code points with a lowercase partner inside the range: A-Z, and the
    Latin-1 capitals U+00C0..U+00DE except the multiplication sign. *)
Definition is_upper (c : ascii) : bool :=
  let n := N_of_ascii c in
  ((65 <=? n) && (n <=? 90) ||
   (192 <=? n) && (n <=? 222) && negb (n =? 215))%N.

Definition lower_char (c : ascii) : ascii :=
  if is_upper c then ascii_of_N (N_of_ascii c + 32) else c.

(** [s.lower()] *)
Fixpoint lower (s : string) : string :=
  match s with
  | EmptyString => EmptyString
  | String c rest => String (lower_char c) (lower rest)
  end.

(** [s.replace(old, new)] for a one-character [old]. *)
Fixpoint replace (old : ascii) (new : string) (s : string) : string :=
  match s with
  | EmptyString => EmptyString
  | String c rest =>
      if Ascii.eqb c old then new ++ replace old new rest
      else String c (replace old new rest)
  end.

(** [sep.join(parts)] *)
Fixpoint join (sep : string) (parts : list string) : string :=
  match parts with
  | [] => ""
  | [p] => p
  | p :: ps => p ++ sep ++ join sep ps
  end.

(** [u in units] for a list of strings. *)
Definition contains (units : list string) (u : string) : bool :=
  existsb (String.eqb u) units.

(** Two characters are the same letter in possibly different case. *)
Inductive same_letter : ascii -> ascii -> Prop :=
| same_refl c : same_letter c c
| same_up c : is_upper c = true ->
              same_letter c (ascii_of_N (N_of_ascii c + 32))
| same_down c : is_upper c = true ->
                same_letter (ascii_of_N (N_of_ascii c + 32)) c.

(** Two strings differ only in letter case. *)
Inductive case_variant : string -> string -> Prop :=
| cv_nil : case_variant "" ""
| cv_cons c d s t : same_letter c d -> case_variant s t ->
                    case_variant (String c s) (String d t).

End PyStr.
Import PyStr.

(** ** Exceptions and results *)

Inductive exn : Type :=
| ValueError (msg : string)
| KeyError (key : string)
| IndexError
| UnboundLocalError (name : string).

(** Evaluation that either yields a value or raises. *)
Inductive exc (A : Type) : Type :=
| Ok (x : A)
| Raise (e : exn).
Arguments Ok {A} x.
Arguments Raise {A} e.

Definition bind {A B : Type} (m : exc A) (k : A -> exc B) : exc B :=
  match m with
  | Ok x => k x
  | Raise e => Raise e
  end.

Notation "x <- m ;; k" := (bind m (fun x => k))
  (at level 61, m at next level, right associativity).

(** ** Dictionaries with string keys (insertion ordered) *)

Definition dict (V : Type) : Type := list (string * V).

Fixpoint get {V : Type} (d : dict V) (k : string) : option V :=
  match d with
  | [] => None
  | (k', v) :: d' => if String.eqb k k' then Some v else get d' k
  end.

(** [k in d] *)
Definition has_key {V : Type} (d : dict V) (k : string) : bool :=
  match get d k with Some _ => true | None => false end.

(** [d[k]] *)
Definition getitem {V : Type} (d : dict V) (k : string) : exc V :=
  match get d k with Some v => Ok v | None => Raise (KeyError k) end.

(** [d.keys()] *)
Definition keys {V : Type} (d : dict V) : list string := map fst d.

(** [s[0]], a one-character string. *)
Definition index0 (s : string) : exc string :=
  match s with
  | EmptyString => Raise IndexError
  | String c _ => Ok (String c "")
  end.

(** Reading a local variable that may not have been assigned. *)
Definition local {A : Type} (name : string) (x : option A) : exc A :=
  match x with
  | Some a => Ok a
  | None => Raise (UnboundLocalError name)
  end.

(** ** Arithmetic *)

(** The operations the converters use.  [of_int] is the value of a Python
    [int] literal used in float arithmetic; [of_decimal m e] the value of
    the decimal literal [m * 10^-e].  Python's [/] raises on a zero
    divisor; every divisor in the program is a non-zero constant of a
    table or a literal, so [div] is the plain quotient.  Overflow of [*]
    raises nothing in Python: the result is an infinity. *)
Class Num (F : Type) : Type := {
  add : F -> F -> F;
  sub : F -> F -> F;
  mul : F -> F -> F;
  div : F -> F -> F;
  of_int : Z -> F;
  of_decimal : Z -> nat -> F
}.

Declare Scope num_scope.
Delimit Scope num_scope with num.
Infix "+" := add : num_scope.
Infix "-" := sub : num_scope.
Infix "*" := mul : num_scope.
Infix "/" := div : num_scope.

(** Binary64. *)
Module Binary64.

Definition of_Z (z : Z) : float :=
  match z with
  | Zneg _ => PrimFloat.opp (PrimFloat.of_uint63 (Uint63.of_Z (Z.opp z)))
  | _ => PrimFloat.of_uint63 (Uint63.of_Z z)
  end.

(** A decimal literal is read as the binary64 nearest to it.  Mantissa
    and power of ten are exact in binary64 for the literals of the
    program, so one correctly rounded division gives that value. *)
Definition of_dec (m : Z) (e : nat) : float :=
  PrimFloat.div (of_Z m) (of_Z (10 ^ Z.of_nat e)).

(** The rational a finite binary64 stands for. *)
Definition exact (x : float) : option Q :=
  match Prim2SF x with
  | S754_zero _ => Some 0%Q
  | S754_finite s m e =>
      let mag := (inject_Z (Zpos m) * Qpower 2 e)%Q in
      Some (if s then Qopp mag else mag)
  | S754_infinity _ | S754_nan => None
  end.

Definition finite (x : float) : bool :=
  match exact x with Some _ => true | None => false end.

(** [x] is finite and within [tol] of [target]. *)
Definition within (tol target : Q) (x : float) : Prop :=
  match exact x with
  | Some q => (Qabs (q - target) < tol)%Q
  | None => False
  end.


End Binary64.

#[export] Instance float_Num : Num float := {
  add := PrimFloat.add;
  sub := PrimFloat.sub;
  mul := PrimFloat.mul;
  div := PrimFloat.div;
  of_int := Binary64.of_Z;
  of_decimal := Binary64.of_dec
}.

#[export] Instance Qc_Num : Num Qc := {
  add := Qcplus;
  sub := Qcminus;
  mul := Qcmult;
  div := Qcdiv;
  of_int := fun z => Q2Qc (inject_Z z);
  of_decimal := fun m e => Q2Qc (inject_Z m / inject_Z (10 ^ Z.of_nat e))
}.

(** ** The converters *)

Section Converter.

Context {F : Type} {num : Num F}.
Local Open Scope num_scope.

Definition to_pa : dict F :=
  [ ("psi", of_decimal 6894757 3);
    ("bar", of_int 100000);
    ("kpa", of_int 1000);
    ("mpa", of_int 1000000);
    ("pa", of_int 1) ].

Definition pressure_msg : string :=
  "Unsupported pressure units. Use: " ++ join ", " (keys to_pa).

Definition convert_pressure (value : F) (from_unit to_unit : string)
  : exc F :=
  let from_unit := lower from_unit in
  let to_unit := lower to_unit in
  if negb (has_key to_pa from_unit) || negb (has_key to_pa to_unit) then
    Raise (ValueError pressure_msg)
  else
    f <- getitem to_pa from_unit ;;
    let pa_value := value * f in
    t <- getitem to_pa to_unit ;;
    Ok (pa_value / t).

Definition valid_units : list string :=
  ["c"; "celsius"; "f"; "fahrenheit"; "k"; "kelvin"].

Definition temperature_msg : string :=
  "Unsupported temperature units. Use: c, f, k".

(** The result is [Ok None] when control falls off the end of the
    function, which in Python returns [None]. *)
Definition convert_temperature (value : F) (from_unit to_unit : string)
  : exc (option F) :=
  let from_unit := lower from_unit in
  let to_unit := lower to_unit in
  if negb (contains valid_units from_unit)
     || negb (contains valid_units to_unit) then
    Raise (ValueError temperature_msg)
  else
    from_unit <- index0 from_unit ;;
    to_unit <- index0 to_unit ;;
    let celsius : option F :=
      if String.eqb from_unit "c" then Some value
      else if String.eqb from_unit "f" then
        Some ((value - of_int 32) * of_int 5 / of_int 9)
      else if String.eqb from_unit "k" then
        Some (value - of_decimal 27315 2)
      else None in
    if String.eqb to_unit "c" then
      c <- local "celsius" celsius ;; Ok (Some c)
    else if String.eqb to_unit "f" then
      c <- local "celsius" celsius ;;
      Ok (Some ((c * of_int 9 / of_int 5) + of_int 32))
    else if String.eqb to_unit "k" then
      c <- local "celsius" celsius ;;
      Ok (Some (c + of_decimal 27315 2))
    else Ok None.

Definition to_lpm : dict F :=
  [ ("gpm", of_decimal 378541 5);
    ("lpm", of_int 1);
    ("m3h", of_decimal 166667 4);
    ("m3/h", of_decimal 166667 4) ].

Definition flow_msg : string :=
  "Unsupported flow units. Use: gpm, lpm, m3h (or m3/h)".

Definition convert_flow (value : F) (from_unit to_unit : string)
  : exc F :=
  let from_unit := replace "/" "" (lower from_unit) in
  let to_unit := replace "/" "" (lower to_unit) in
  if negb (has_key to_lpm from_unit) || negb (has_key to_lpm to_unit) then
    Raise (ValueError flow_msg)
  else
    f <- getitem to_lpm from_unit ;;
    let lpm_value := value * f in
    t <- getitem to_lpm to_unit ;;
    Ok (lpm_value / t).

End Converter.

(** ** The converters as they are described *)

(** The reading of the temperature converter in the words of its
    description: each valid unit names a scale, the input is taken to
    Celsius and from there to the target scale. *)
Inductive scale : Type := Celsius | Fahrenheit | Kelvin.

Definition unit_scale : dict scale :=
  [ ("c", Celsius); ("celsius", Celsius);
    ("f", Fahrenheit); ("fahrenheit", Fahrenheit);
    ("k", Kelvin); ("kelvin", Kelvin) ].

Section Reading.

Context {F : Type} {num : Num F}.
Local Open Scope num_scope.

Definition to_celsius (s : scale) (v : F) : F :=
  match s with
  | Celsius => v
  | Fahrenheit => (v - of_int 32) * of_int 5 / of_int 9
  | Kelvin => v - of_decimal 27315 2
  end.

Definition from_celsius (s : scale) (c : F) : F :=
  match s with
  | Celsius => c
  | Fahrenheit => (c * of_int 9 / of_int 5) + of_int 32
  | Kelvin => c + of_decimal 27315 2
  end.

(** One shape covers both table-driven converters. *)
Definition scale_through (table : dict F) (msg : string)
           (value : F) (from_key to_key : string) : exc F :=
  if negb (has_key table from_key) || negb (has_key table to_key) then
    Raise (ValueError msg)
  else
    f <- getitem table from_key ;;
    t <- getitem table to_key ;;
    Ok (value * f / t).

(** The value times the ratio of the two scale factors. *)
Definition times_ratio (value f t : F) : F := value * (f / t).

End Reading.

(** ** The command line *)

(** What can end a run besides the exceptions of the converters. *)
Inductive failure : Type :=
| Exception (e : exn)
| TypeError (msg : string)
| AssertionError.

Inductive ending : Type :=
| Returned
| SysExit (code : Z)
| Uncaught (f : failure).

(** What a run prints itself, and how it ends.  The traceback the
    interpreter writes for an uncaught exception is not part of [stderr]. *)
Record run : Type := {
  stdout : list string;
  stderr : list string;
  ending_of : ending
}.

Definition exit_status (r : run) : Z :=
  match ending_of r with
  | Returned => 0
  | SysExit code => code
  | Uncaught _ => 1
  end.

(** The two characters written between a temperature and its unit, as
    they stand in the source: U+00C2 U+00B0. *)
Definition degree : string :=
  String (ascii_of_nat 194) (String (ascii_of_nat 176) "").

Section Main.

Context {F : Type} {num : Num F}.

(** Python's own formatting: [str(x)] of a float, [format(x, ".nf")], and
    [s.upper()]. *)
Variable str_float : F -> string.
Variable fixed : nat -> F -> string.
Variable upper : string -> string.

(** The parsed command line. *)
Record arguments : Type := {
  type : string;
  value : F;
  from_unit : string;
  to_unit : string
}.

(** The body of the [try] statement: the lines printed, or what was
    raised. *)
Definition try_body (args : arguments) : failure + list string :=
  if String.eqb (type args) "pressure" then
    match convert_pressure (value args) (from_unit args) (to_unit args) with
    | Ok result =>
        inr [ str_float (value args) ++ " " ++ from_unit args ++ " = "
              ++ fixed 4 result ++ " " ++ to_unit args ]
    | Raise e => inl (Exception e)
    end
  else if String.eqb (type args) "temp" then
    match convert_temperature (value args) (from_unit args) (to_unit args)
    with
    | Ok (Some result) =>
        inr [ str_float (value args) ++ degree ++ upper (from_unit args)
              ++ " = " ++ fixed 2 result ++ degree
              ++ upper (to_unit args) ]
    | Ok None =>
        inl (TypeError
               "unsupported format string passed to NoneType.__format__")
    | Raise e => inl (Exception e)
    end
  else if String.eqb (type args) "flow" then
    match convert_flow (value args) (from_unit args) (to_unit args) with
    | Ok result =>
        inr [ str_float (value args) ++ " " ++ from_unit args ++ " = "
              ++ fixed 4 result ++ " " ++ to_unit args ]
    | Raise e => inl (Exception e)
    end
  else inr [].

(** [main], from the parsed arguments on. *)
Definition main (args : arguments) : run :=
  match try_body args with
  | inr lines => {| stdout := lines; stderr := []; ending_of := Returned |}
  | inl (Exception (ValueError msg)) =>
      {| stdout := []; stderr := ["Error: " ++ msg];
         ending_of := SysExit 1 |}
  | inl f => {| stdout := []; stderr := []; ending_of := Uncaught f |}
  end.

End Main.

(** ** The self-test *)

Inductive step : Type :=
| Print (line : string)
| Assert (cond : failure + bool).

(** Statements run in order; a failed or failing [assert] ends the run,
    and after the last statement comes [sys.exit(0)]. *)
Fixpoint run_steps (steps : list step) (printed : list string) : run :=
  match steps with
  | [] => {| stdout := printed; stderr := []; ending_of := SysExit 0 |}
  | Print line :: rest => run_steps rest (printed ++ [line])
  | Assert (inr true) :: rest => run_steps rest printed
  | Assert (inr false) :: rest =>
      {| stdout := printed; stderr := [];
         ending_of := Uncaught AssertionError |}
  | Assert (inl f) :: rest =>
      {| stdout := printed; stderr := []; ending_of := Uncaught f |}
  end.

(** [abs(r - target) < tol] for the result of a table-driven converter. *)
Definition near (r : exc float) (target tol : float) : failure + bool :=
  match r with
  | Ok x => inr (PrimFloat.ltb (PrimFloat.abs (PrimFloat.sub x target)) tol)
  | Raise e => inl (Exception e)
  end.

(** The same for [convert_temperature], whose result may be [None];
    [kind] is the type of the literal subtracted, ['int'] or ['float']. *)
Definition near_opt (r : exc (option float)) (kind : string)
           (target tol : float) : failure + bool :=
  match r with
  | Ok (Some x) =>
      inr (PrimFloat.ltb (PrimFloat.abs (PrimFloat.sub x target)) tol)
  | Ok None =>
      inl (TypeError
             ("unsupported operand type(s) for -: 'NoneType' and " ++ kind))
  | Raise e => inl (Exception e)
  end.

(** The block run when the program gets no arguments.  [check] and
    [party] are the glyphs that open the three progress lines and close
    the last one; they lie outside the Latin-1 range. *)
Definition self_test (check party : string) : run :=
  run_steps
    [ Print "Running self-test...";
      Print "";
      Assert (near (convert_pressure 100%float "psi" "bar") 6.8948 0.001);
      Assert (near (convert_pressure 1%float "bar" "kpa") 100 0.001);
      Print (check ++ " Pressure conversions work");
      Assert (near_opt (convert_temperature 212%float "f" "c")
                       "'int'" 100 0.01);
      Assert (near_opt (convert_temperature 0%float "c" "k")
                       "'float'" 273.15 0.01);
      Print (check ++ " Temperature conversions work");
      Assert (near (convert_flow 1%float "gpm" "lpm") 3.78541 0.001);
      Assert (near (convert_flow 1%float "m3h" "lpm") 16.6667 0.001);
      Print (check ++ " Flow conversions work");
      Print "";
      Print ("All tests passed! " ++ party);
      Print "";
      Print "Usage examples:";
      Print "  python converter.py pressure 100 psi bar";
      Print "  python converter.py temp 212 f c";
      Print "  python converter.py flow 50 gpm m3h" ]
    [].

(** Two results cannot be equal when one holds a finite binary64 and the
    other does not. *)
Ltac not_same_finiteness :=
  let E := fresh "E" in
  intros E;
  apply (f_equal (fun r => match r with
                           | Ok x => Binary64.finite x
                           | Raise _ => false
                           end)) in E;
  vm_compute in E; discriminate E.

(** ** Strings: lowercasing and case variants *)

Module PyStrFacts.

Lemma lower_char_same (c d : ascii) :
  same_letter c d -> lower_char c = lower_char d.
Proof.
  intros S; destruct S as [c | c U | c U]; trivial;
    destruct c as [[] [] [] [] [] [] [] []];
    first [ discriminate U | reflexivity ].
Qed.

Lemma lower_case_variant (s t : string) :
  case_variant s t -> lower s = lower t.
Proof.
  induction 1 as [| c d s t L _ IH]; simpl.
  - reflexivity.
  - now rewrite (lower_char_same c d L), IH.
Qed.

Lemma lower_char_idem (c : ascii) : lower_char (lower_char c) = lower_char c.
Proof. destruct c as [[] [] [] [] [] [] [] []]; reflexivity. Qed.

Lemma lower_idem (s : string) : lower (lower s) = lower s.
Proof.
  induction s as [| c s IH]; simpl; [reflexivity|].
  now rewrite lower_char_idem, IH.
Qed.

Lemma contains_In (units : list string) (u : string) :
  contains units u = true <-> In u units.
Proof.
  unfold contains. rewrite existsb_exists. split.
  - intros (x & I & E). apply String.eqb_eq in E. now subst.
  - intros I. exists u. split; [assumption | apply String.eqb_refl].
Qed.

Lemma contains_not_In (units : list string) (u : string) :
  contains units u = false <-> ~ In u units.
Proof.
  rewrite <- contains_In.
  destruct (contains units u); split; intros X; congruence.
Qed.

(** Stripping a character is idempotent. *)
Lemma replace_empty_idem (c : ascii) (s : string) :
  replace c "" (replace c "" s) = replace c "" s.
Proof.
  induction s as [| a s IH]; simpl; [reflexivity|].
  destruct (Ascii.eqb a c) eqn:E; simpl; [assumption|].
  now rewrite E, IH.
Qed.

End PyStrFacts.
Import PyStrFacts.

(** ** Dictionary lookup *)

Section DictFacts.

Variable V : Type.
Implicit Types (d : dict V) (k : string).

Lemma get_None_keys d k : get d k = None <-> ~ In k (keys d).
Proof.
  induction d as [| [k' v] d IH]; simpl.
  - split; [intros _ [] | reflexivity].
  - destruct (String.eqb k k') eqn:E.
    + apply String.eqb_eq in E. subst. split; [discriminate|].
      intros N. exfalso. apply N. now left.
    + apply String.eqb_neq in E. rewrite IH. split.
      * intros N [L | R]; [congruence | contradiction].
      * intros N I. apply N. now right.
Qed.

Lemma get_Some_keys d k : (exists v, get d k = Some v) <-> In k (keys d).
Proof.
  destruct (get d k) as [v|] eqn:G.
  - split; [intros _ | intros _; now exists v].
    destruct (in_dec string_dec k (keys d)) as [I | N]; [assumption|].
    apply get_None_keys in N. congruence.
  - split; [intros [v E]; discriminate|].
    intros I. apply get_None_keys in G. contradiction.
Qed.

Lemma has_key_true d k : has_key d k = true <-> In k (keys d).
Proof.
  rewrite <- get_Some_keys. unfold has_key.
  destruct (get d k) as [v|]; split; try discriminate; trivial.
  - intros _. now exists v.
  - intros [v E]. discriminate.
Qed.

Lemma has_key_false d k : has_key d k = false <-> ~ In k (keys d).
Proof.
  rewrite <- has_key_true.
  destruct (has_key d k); split; intros X; congruence.
Qed.

End DictFacts.

(** ** Table-driven conversion (pressure and flow) *)

Section Scaling.

Context {F : Type} {num : Num F}.
Local Open Scope num_scope.

Lemma convert_pressure_scale (v : F) (uf ut : string) :
  convert_pressure v uf ut
  = scale_through to_pa pressure_msg v (lower uf) (lower ut).
Proof.
  unfold convert_pressure, scale_through.
  destruct (negb _ || negb _); [reflexivity|].
  destruct (getitem to_pa (lower uf)); reflexivity.
Qed.

Lemma convert_flow_scale (v : F) (uf ut : string) :
  convert_flow v uf ut
  = scale_through to_lpm flow_msg v
      (replace "/" "" (lower uf)) (replace "/" "" (lower ut)).
Proof.
  unfold convert_flow, scale_through.
  destruct (negb _ || negb _); [reflexivity|].
  destruct (getitem to_lpm (replace "/" "" (lower uf))); reflexivity.
Qed.

Variables (table : dict F) (msg : string).

Lemma scale_through_ok (v f t : F) (a b : string) :
  get table a = Some f -> get table b = Some t ->
  scale_through table msg v a b = Ok (v * f / t).
Proof.
  intros A B. unfold scale_through, has_key, getitem.
  now rewrite A, B.
Qed.

Lemma scale_through_raise_l (v : F) (a b : string) :
  ~ In a (keys table) ->
  scale_through table msg v a b = Raise (ValueError msg).
Proof.
  intros N. apply has_key_false in N. unfold scale_through.
  now rewrite N.
Qed.

Lemma scale_through_raise_r (v : F) (a b : string) :
  ~ In b (keys table) ->
  scale_through table msg v a b = Raise (ValueError msg).
Proof.
  intros N. apply has_key_false in N. unfold scale_through.
  rewrite N. now destruct (has_key table a).
Qed.

Lemma scale_through_present (v : F) (a b : string) :
  In a (keys table) -> In b (keys table) ->
  exists f t, get table a = Some f /\ get table b = Some t /\
              scale_through table msg v a b = Ok (v * f / t).
Proof.
  intros A B. apply get_Some_keys in A, B.
  destruct A as [f A], B as [t B]. exists f, t.
  repeat split; trivial. now apply scale_through_ok.
Qed.

(** The call raises exactly when a key is missing, and then it is the
    unsupported-unit error. *)
Lemma scale_through_raises_iff (v : F) (a b : string) :
  (exists e, scale_through table msg v a b = Raise e)
  <-> (~ In a (keys table) \/ ~ In b (keys table)).
Proof.
  split.
  - intros [e E].
    destruct (in_dec string_dec a (keys table)) as [A | A]; [|now left].
    destruct (in_dec string_dec b (keys table)) as [B | B]; [|now right].
    destruct (scale_through_present v a b A B) as (f & t & _ & _ & R).
    congruence.
  - intros [N | N]; exists (ValueError msg);
      [now apply scale_through_raise_l | now apply scale_through_raise_r].
Qed.

Lemma scale_through_only_ValueError (v : F) (a b : string) (e : exn) :
  scale_through table msg v a b = Raise e -> e = ValueError msg.
Proof.
  intros E.
  assert (X : exists e, scale_through table msg v a b = Raise e)
    by now exists e.
  apply scale_through_raises_iff in X.
  destruct X as [N | N];
    [rewrite (scale_through_raise_l v a b N) in E
    |rewrite (scale_through_raise_r v a b N) in E]; congruence.
Qed.

End Scaling.

(** ** Temperature: validation and dispatch on the first character *)

Section Temperature.

Context {F : Type} {num : Num F}.
Local Open Scope num_scope.

Lemma valid_units_cases (u : string) :
  In u valid_units ->
  u = "c" \/ u = "celsius" \/ u = "f" \/ u = "fahrenheit"
  \/ u = "k" \/ u = "kelvin".
Proof.
  unfold valid_units; simpl. intuition auto.
Qed.

Lemma unit_scale_keys : keys unit_scale = valid_units.
Proof. reflexivity. Qed.

Lemma valid_unit_scale (u : string) :
  In u valid_units -> exists s, get unit_scale u = Some s.
Proof. rewrite <- unit_scale_keys. apply get_Some_keys. Qed.

Lemma unit_scale_valid (u : string) (s : scale) :
  get unit_scale u = Some s -> In u valid_units.
Proof.
  intros G. rewrite <- unit_scale_keys. apply get_Some_keys. now exists s.
Qed.

Lemma convert_temperature_scales (v : F) (uf ut : string) (sf st : scale) :
  get unit_scale (lower uf) = Some sf ->
  get unit_scale (lower ut) = Some st ->
  convert_temperature v uf ut
  = Ok (Some (from_celsius st (to_celsius sf v))).
Proof.
  intros Gf Gt.
  pose proof (valid_units_cases _ (unit_scale_valid _ _ Gf)) as Cf.
  pose proof (valid_units_cases _ (unit_scale_valid _ _ Gt)) as Ct.
  unfold convert_temperature; cbv zeta.
  destruct Cf as [Ef | [Ef | [Ef | [Ef | [Ef | Ef]]]]];
    destruct Ct as [Et | [Et | [Et | [Et | [Et | Et]]]]];
    rewrite Ef in Gf |- *; rewrite Et in Gt |- *;
    injection Gf as <-; injection Gt as <-; reflexivity.
Qed.

Lemma convert_temperature_returns (v : F) (uf ut : string) :
  In (lower uf) valid_units -> In (lower ut) valid_units ->
  exists x, convert_temperature v uf ut = Ok (Some x).
Proof.
  intros Vf Vt.
  destruct (valid_unit_scale _ Vf) as [sf Gf].
  destruct (valid_unit_scale _ Vt) as [st Gt].
  eexists. now apply convert_temperature_scales with (sf := sf) (st := st).
Qed.

Lemma convert_temperature_raise_from (v : F) (uf ut : string) :
  ~ In (lower uf) valid_units ->
  convert_temperature v uf ut = Raise (ValueError temperature_msg).
Proof.
  intros N. apply contains_not_In in N.
  unfold convert_temperature; cbv zeta. now rewrite N.
Qed.

Lemma convert_temperature_raise_to (v : F) (uf ut : string) :
  ~ In (lower ut) valid_units ->
  convert_temperature v uf ut = Raise (ValueError temperature_msg).
Proof.
  intros N. apply contains_not_In in N.
  unfold convert_temperature; cbv zeta. rewrite N.
  now destruct (contains valid_units (lower uf)).
Qed.

Lemma convert_temperature_raises_iff (v : F) (uf ut : string) :
  (exists e, convert_temperature v uf ut = Raise e)
  <-> (~ In (lower uf) valid_units \/ ~ In (lower ut) valid_units).
Proof.
  split.
  - intros [e E].
    destruct (in_dec string_dec (lower uf) valid_units) as [A | A];
      [|now left].
    destruct (in_dec string_dec (lower ut) valid_units) as [B | B];
      [|now right].
    destruct (convert_temperature_returns v uf ut A B) as [x R].
    congruence.
  - intros [N | N]; exists (ValueError temperature_msg);
      [now apply convert_temperature_raise_from
      |now apply convert_temperature_raise_to].
Qed.

Lemma convert_temperature_only_ValueError (v : F) (uf ut : string) e :
  convert_temperature v uf ut = Raise e -> e = ValueError temperature_msg.
Proof.
  intros E.
  assert (X : exists e, convert_temperature v uf ut = Raise e)
    by now exists e.
  apply convert_temperature_raises_iff in X.
  destruct X as [N | N];
    [rewrite (convert_temperature_raise_from v uf ut N) in E
    |rewrite (convert_temperature_raise_to v uf ut N) in E]; congruence.
Qed.

End Temperature.

Lemma case_variant_refl (s : string) : case_variant s s.
Proof. induction s; constructor; [apply same_refl | assumption]. Qed.

(** ** Validation of units *)

Lemma first_character_of_valid (u : string) :
  In u valid_units ->
  exists c rest, u = String c rest /\ In (String c "") ["c"; "f"; "k"].
Proof.
  intros V. apply valid_units_cases in V.
  destruct V as [E | [E | [E | [E | [E | E]]]]]; subst u;
    eexists; eexists; (split; [reflexivity | simpl; tauto]).
Qed.

(** C2: [convert_temperature] raises exactly when the whole lowercased
    [from_unit] or [to_unit] is not one of c, celsius, f, fahrenheit, k,
    kelvin; what it raises is then the unsupported-unit error, and when
    both are members nothing is raised: a number is returned. *)
Theorem temperature_error_iff_not_member
  {F : Type} {num : Num F} (v : F) (from_unit to_unit : string) :
  (convert_temperature v from_unit to_unit
   = Raise (ValueError temperature_msg)
   <-> ~ (In (lower from_unit) valid_units /\ In (lower to_unit) valid_units))
  /\ ((exists e, convert_temperature v from_unit to_unit = Raise e)
      <-> ~ (In (lower from_unit) valid_units
             /\ In (lower to_unit) valid_units))
  /\ ((exists x, convert_temperature v from_unit to_unit = Ok (Some x))
      <-> (In (lower from_unit) valid_units
           /\ In (lower to_unit) valid_units)).
Proof.
  assert (D : (~ (In (lower from_unit) valid_units
                  /\ In (lower to_unit) valid_units))
              <-> (~ In (lower from_unit) valid_units
                   \/ ~ In (lower to_unit) valid_units)).
  { destruct (in_dec string_dec (lower from_unit) valid_units);
      destruct (in_dec string_dec (lower to_unit) valid_units); tauto. }
  pose proof (convert_temperature_raises_iff v from_unit to_unit) as R.
  split; [|split]; split.
  - intros E. apply D, R. eauto.
  - intros N. apply D in N.
    destruct N as [N | N];
      [now apply convert_temperature_raise_from
      |now apply convert_temperature_raise_to].
  - intros E. now apply D, R.
  - intros N. now apply R, D.
  - intros [x E]. split.
    + destruct (in_dec string_dec (lower from_unit) valid_units) as [A | A];
        [assumption|].
      rewrite (convert_temperature_raise_from v from_unit to_unit A) in E.
      discriminate.
    + destruct (in_dec string_dec (lower to_unit) valid_units) as [A | A];
        [assumption|].
      rewrite (convert_temperature_raise_to v from_unit to_unit A) in E.
      discriminate.
  - intros [A B]. now apply convert_temperature_returns.
Qed.

(** C9: when validation passes, both unit strings start with c, f or k,
    so each chain of branches takes one of its arms: the function returns
    a number, and neither the fall-through that returns [None] nor a read
    of an unassigned [celsius] can happen. *)
Theorem temperature_no_fallthrough
  {F : Type} {num : Num F} (v : F) (from_unit to_unit : string) :
  In (lower from_unit) valid_units ->
  In (lower to_unit) valid_units ->
  (exists c rest, lower from_unit = String c rest
                  /\ In (String c "") ["c"; "f"; "k"])
  /\ (exists c rest, lower to_unit = String c rest
                     /\ In (String c "") ["c"; "f"; "k"])
  /\ (exists x, convert_temperature v from_unit to_unit = Ok (Some x))
  /\ convert_temperature v from_unit to_unit <> Ok None
  /\ (forall e, convert_temperature v from_unit to_unit <> Raise e).
Proof.
  intros A B.
  destruct (convert_temperature_returns v from_unit to_unit A B) as [x R].
  repeat split.
  - now apply first_character_of_valid.
  - now apply first_character_of_valid.
  - now exists x.
  - rewrite R. discriminate.
  - intros e. rewrite R. discriminate.
Qed.

Lemma temperature_no_fallthrough_witness :
  In (lower "Fahrenheit") valid_units
  /\ In (lower "K") valid_units
  /\ exists x, convert_temperature (F := float) 212%float "Fahrenheit" "K"
               = Ok (Some x).
Proof.
  assert (A : In (lower "Fahrenheit") valid_units) by (simpl; tauto).
  assert (B : In (lower "K") valid_units) by (simpl; tauto).
  split; [exact A | split; [exact B |]].
  exact (proj1 (proj2 (proj2
    (temperature_no_fallthrough (F := float) 212%float "Fahrenheit" "K" A B)))).
Defined.

(** C1 (amended): a unit string is accepted only when its whole lowercased
    form is one of c, celsius, f, fahrenheit, k, kelvin; an accepted
    string is then treated by its first character alone, so "kelvin" acts
    as "k".  A string that merely starts with c, f or k, such as "kxyz",
    raises the unsupported-unit error, in either position. *)
Theorem temperature_first_character_of_valid
  {F : Type} {num : Num F} (v : F) (from_unit to_unit : string) :
  (In (lower from_unit) valid_units ->
   In (lower to_unit) valid_units ->
   exists cf ct,
     index0 (lower from_unit) = Ok cf /\ index0 (lower to_unit) = Ok ct
     /\ In cf ["c"; "f"; "k"] /\ In ct ["c"; "f"; "k"]
     /\ convert_temperature v from_unit to_unit
        = convert_temperature v cf ct)
  /\ (~ In (lower from_unit) valid_units ->
      convert_temperature v from_unit to_unit
      = Raise (ValueError temperature_msg)
      /\ convert_temperature v to_unit from_unit
         = Raise (ValueError temperature_msg))
  /\ convert_temperature v "kxyz" "c" = Raise (ValueError temperature_msg)
  /\ convert_temperature v "c" "kxyz" = Raise (ValueError temperature_msg)
  /\ convert_temperature v "kelvin" "c"
     = Ok (Some (sub v (of_decimal 27315 2))).
Proof.
  split; [|split; [|repeat split]].
  - intros A B.
    apply valid_units_cases in A, B.
    unfold convert_temperature at 1; cbv zeta.
    destruct A as [A | [A | [A | [A | [A | A]]]]];
      destruct B as [B | [B | [B | [B | [B | B]]]]];
      rewrite A, B; eexists; eexists;
      (split; [reflexivity|]); (split; [reflexivity|]);
      (split; [simpl; tauto|]); (split; [simpl; tauto|]); reflexivity.
  - intros N. split;
      [now apply convert_temperature_raise_from
      |now apply convert_temperature_raise_to].
Qed.

Lemma temperature_first_character_of_valid_witness :
  In (lower "Kelvin") valid_units
  /\ In (lower "C") valid_units
  /\ ~ In (lower "kxyz") valid_units
  /\ convert_temperature (F := float) 300%float "kxyz" "C"
     = Raise (ValueError temperature_msg)
  /\ exists cf ct,
       convert_temperature (F := float) 300%float "Kelvin" "C"
       = convert_temperature 300%float cf ct.
Proof.
  assert (A : In (lower "Kelvin") valid_units) by (simpl; tauto).
  assert (B : In (lower "C") valid_units) by (simpl; tauto).
  assert (N : ~ In (lower "kxyz") valid_units).
  { simpl. intros X. repeat destruct X as [X | X]; try discriminate X.
    exact X. }
  split; [exact A | split; [exact B | split; [exact N | split]]].
  - exact (proj1 (proj1 (proj2
      (temperature_first_character_of_valid (F := float) 300%float
         "kxyz" "C")) N)).
  - destruct (proj1
      (temperature_first_character_of_valid (F := float) 300%float
         "Kelvin" "C")
      A B) as (cf & ct & _ & _ & _ & _ & E).
    now exists cf, ct.
Defined.

(** C1 (as stated, refuted): "kxyz" starts with k, yet for the value 300
    the call raises the unsupported-unit error instead of returning
    300 - 273.15. *)
Lemma temperature_kxyz_rejected :
  convert_temperature (F := float) 300%float "kxyz" "c"
  = Raise (ValueError temperature_msg)
  /\ convert_temperature (F := float) 300%float "kxyz" "c"
     <> Ok (Some (sub 300%float (of_decimal 27315 2))).
Proof.
  split; [reflexivity|].
  change (convert_temperature (F := float) 300%float "kxyz" "c")
    with (@Raise (option float) (ValueError temperature_msg)).
  discriminate.
Qed.

(** ** Unsupported units in the table-driven converters *)

Lemma pressure_keys {F : Type} {num : Num F} :
  keys (to_pa (F := F)) = ["psi"; "bar"; "kpa"; "mpa"; "pa"].
Proof. reflexivity. Qed.

Lemma flow_keys {F : Type} {num : Num F} :
  keys (to_lpm (F := F)) = ["gpm"; "lpm"; "m3h"; "m3/h"].
Proof. reflexivity. Qed.

Example pressure_msg_names_units {F : Type} {num : Num F} :
  pressure_msg (F := F)
  = "Unsupported pressure units. Use: psi, bar, kpa, mpa, pa".
Proof. reflexivity. Qed.

(** C7: [convert_pressure] and [convert_flow] raise exactly when the
    normalised [from_unit] or [to_unit] (lowercased; for flow also with
    every slash removed) is not a key of the conversion table, and what
    they raise is the unsupported-unit error; a unit that is not in the
    table gives the same error in the [from_unit] and in the [to_unit]
    position, as "atm" does for pressure. *)
Theorem table_error_iff_absent
  {F : Type} {num : Num F} (v : F) (from_unit to_unit : string) :
  let pkey := lower in
  let fkey := fun u => replace "/" "" (lower u) in
  ((exists e, convert_pressure v from_unit to_unit = Raise e)
   <-> (~ In (pkey from_unit) (keys (to_pa (F := F)))
        \/ ~ In (pkey to_unit) (keys (to_pa (F := F)))))
  /\ (forall e, convert_pressure v from_unit to_unit = Raise e ->
                e = ValueError (pressure_msg (F := F)))
  /\ ((exists e, convert_flow v from_unit to_unit = Raise e)
      <-> (~ In (fkey from_unit) (keys (to_lpm (F := F)))
           \/ ~ In (fkey to_unit) (keys (to_lpm (F := F)))))
  /\ (forall e, convert_flow v from_unit to_unit = Raise e ->
                e = ValueError flow_msg)
  /\ (~ In (pkey from_unit) (keys (to_pa (F := F))) ->
      convert_pressure v from_unit to_unit
      = Raise (ValueError (pressure_msg (F := F)))
      /\ convert_pressure v to_unit from_unit
         = Raise (ValueError (pressure_msg (F := F))))
  /\ (~ In (fkey from_unit) (keys (to_lpm (F := F))) ->
      convert_flow v from_unit to_unit = Raise (ValueError flow_msg)
      /\ convert_flow v to_unit from_unit = Raise (ValueError flow_msg))
  /\ convert_pressure v "atm" to_unit
     = Raise (ValueError (pressure_msg (F := F)))
  /\ convert_pressure v from_unit "atm"
     = Raise (ValueError (pressure_msg (F := F))).
Proof.
  intros pkey fkey. subst pkey fkey. cbv beta.
  assert (Atm : ~ In (lower "atm") (keys (to_pa (F := F)))).
  { simpl. intros X. repeat destruct X as [X | X]; try discriminate X.
    exact X. }
  repeat rewrite convert_pressure_scale. repeat rewrite convert_flow_scale.
  split; [apply scale_through_raises_iff|].
  split; [apply scale_through_only_ValueError|].
  split; [apply scale_through_raises_iff|].
  split; [apply scale_through_only_ValueError|].
  split.
  { intros N. split;
      [now apply scale_through_raise_l | now apply scale_through_raise_r]. }
  split.
  { intros N. split;
      [now apply scale_through_raise_l | now apply scale_through_raise_r]. }
  split; [now apply scale_through_raise_l | now apply scale_through_raise_r].
Qed.

Lemma table_error_iff_absent_witness :
  ~ In (lower "ATM") (keys (to_pa (F := float)))
  /\ convert_pressure (F := float) 100%float "ATM" "bar"
     = Raise (ValueError (pressure_msg (F := float)))
  /\ convert_pressure (F := float) 100%float "bar" "ATM"
     = Raise (ValueError (pressure_msg (F := float))).
Proof.
  assert (N : ~ In (lower "ATM") (keys (to_pa (F := float)))).
  { simpl. intros X. repeat destruct X as [X | X]; try discriminate X.
    exact X. }
  split; [exact N|].
  exact (proj1 (proj2 (proj2 (proj2 (proj2
    (table_error_iff_absent (F := float) 100%float "ATM" "bar"))))) N).
Defined.

(** ** Case-insensitive matching *)

(** C8: unit matching ignores letter case in all three converters:
    replacing either unit string by one that differs from it only in the
    case of its letters leaves the outcome unchanged, be it the value
    returned or the error raised; so "PSI" gives what "psi" gives. *)
Theorem conversion_case_insensitive
  {F : Type} {num : Num F} (v : F)
  (from_unit from_unit' to_unit to_unit' : string) :
  case_variant from_unit from_unit' ->
  case_variant to_unit to_unit' ->
  convert_pressure v from_unit to_unit
  = convert_pressure v from_unit' to_unit'
  /\ convert_temperature v from_unit to_unit
     = convert_temperature v from_unit' to_unit'
  /\ convert_flow v from_unit to_unit = convert_flow v from_unit' to_unit'
  /\ convert_pressure v "PSI" to_unit = convert_pressure v "psi" to_unit'.
Proof.
  intros Cf Ct.
  apply lower_case_variant in Cf, Ct.
  unfold convert_pressure, convert_temperature, convert_flow; cbv zeta.
  rewrite Cf, Ct. repeat split; reflexivity.
Qed.

Lemma conversion_case_insensitive_witness :
  case_variant "PSI" "psi"
  /\ case_variant "Bar" "bAR"
  /\ convert_pressure (F := float) 100%float "PSI" "Bar"
     = convert_pressure (F := float) 100%float "psi" "bAR".
Proof.
  assert (A : case_variant "PSI" "psi").
  { repeat (apply cv_cons; [now apply same_up|]). apply cv_nil. }
  assert (B : case_variant "Bar" "bAR").
  { apply cv_cons; [now apply same_up|].
    apply cv_cons; [now apply (same_down "A")|].
    apply cv_cons; [now apply (same_down "R")|]. apply cv_nil. }
  split; [exact A | split; [exact B|]].
  exact (proj1
    (conversion_case_insensitive (F := float) 100%float
       "PSI" "psi" "Bar" "bAR" A B)).
Defined.

(** ** Exact arithmetic: inverses and round trips *)

Module Exact.

Lemma nonzero_by_numerator (q : Qc) :
  (Qnum (this q) =? 0)%Z = false -> q <> Q2Qc 0.
Proof. intros N E. rewrite E in N. discriminate N. Qed.

Lemma to_pa_nonzero (k : string) (f : Qc) :
  get to_pa k = Some f -> f <> Q2Qc 0.
Proof.
  simpl.
  repeat (destruct (String.eqb k _);
          [intros G; injection G as <-;
           apply nonzero_by_numerator; reflexivity|]).
  discriminate.
Qed.

Lemma to_lpm_nonzero (k : string) (f : Qc) :
  get to_lpm k = Some f -> f <> Q2Qc 0.
Proof.
  simpl.
  repeat (destruct (String.eqb k _);
          [intros G; injection G as <-;
           apply nonzero_by_numerator; reflexivity|]).
  discriminate.
Qed.

Lemma product_quotient_is_ratio (v f t : Qc) :
  div (mul v f) t = times_ratio v f t.
Proof.
  unfold times_ratio. cbn [mul div Qc_Num]. unfold Qcdiv. ring.
Qed.


Lemma temperature_inverse (s : scale) (x : Qc) :
  from_celsius s (to_celsius s x) = x /\ to_celsius s (from_celsius s x) = x.
Proof.
  assert (N9 : of_int (F := Qc) 9 <> Q2Qc 0)
    by (apply nonzero_by_numerator; reflexivity).
  assert (N5 : of_int (F := Qc) 5 <> Q2Qc 0)
    by (apply nonzero_by_numerator; reflexivity).
  unfold to_celsius, from_celsius.
  change (@add Qc Qc_Num) with Qcplus; change (@sub Qc Qc_Num) with Qcminus;
    change (@mul Qc Qc_Num) with Qcmult; change (@div Qc Qc_Num) with Qcdiv.
  revert N9 N5.
  generalize (of_int (F := Qc) 9) (of_int (F := Qc) 5)
             (of_int (F := Qc) 32) (of_decimal (F := Qc) 27315 2).
  intros n9 n5 n32 k N9 N5.
  destruct s; split; try reflexivity; try (field; auto); try ring.
Qed.

Section Tables.

Variables (table : dict Qc) (msg : string).
Hypothesis table_nonzero :
  forall k f, get table k = Some f -> f <> Q2Qc 0.


Lemma scale_through_identity (v : Qc) (a : string) :
  In a (keys table) -> scale_through table msg v a a = Ok v.
Proof.
  intros A.
  destruct (scale_through_present table msg v a a A A)
    as (f & t & Gf & Gt & R).
  rewrite R. assert (t = f) by congruence. subst t.
  f_equal. cbn [mul div Qc_Num]. field. eauto.
Qed.

End Tables.


End Exact.

(** C10: over exact arithmetic an identity conversion returns exactly its
    argument: for every value [v] and every supported unit [u] of a
    domain, converting [v] from [u] to [u] gives [v], in all three
    converters. *)
Theorem identity_conversion_exact (v : Qc) (u : string) :
  (In (lower u) (keys (to_pa (F := Qc))) -> convert_pressure v u u = Ok v)
  /\ (In (lower u) valid_units -> convert_temperature v u u = Ok (Some v))
  /\ (In (replace "/" "" (lower u)) (keys (to_lpm (F := Qc))) ->
      convert_flow v u u = Ok v).
Proof.
  split; [|split].
  - intros A. rewrite convert_pressure_scale.
    apply Exact.scale_through_identity; [apply Exact.to_pa_nonzero | exact A].
  - intros A. destruct (valid_unit_scale _ A) as [s G].
    rewrite (convert_temperature_scales v u u s s G G).
    now rewrite (proj1 (Exact.temperature_inverse s v)).
  - intros A. rewrite convert_flow_scale.
    apply Exact.scale_through_identity; [apply Exact.to_lpm_nonzero | exact A].
Qed.

Lemma identity_conversion_exact_witness :
  In (lower "PSI") (keys (to_pa (F := Qc)))
  /\ In (lower "Fahrenheit") valid_units
  /\ In (replace "/" "" (lower "M3/H")) (keys (to_lpm (F := Qc)))
  /\ convert_pressure (Q2Qc 3) "PSI" "PSI" = Ok (Q2Qc 3)
  /\ convert_temperature (Q2Qc 3) "Fahrenheit" "Fahrenheit"
     = Ok (Some (Q2Qc 3))
  /\ convert_flow (Q2Qc 3) "M3/H" "M3/H" = Ok (Q2Qc 3).
Proof.
  assert (A : In (lower "PSI") (keys (to_pa (F := Qc)))) by (simpl; tauto).
  assert (B : In (lower "Fahrenheit") valid_units) by (simpl; tauto).
  assert (C : In (replace "/" "" (lower "M3/H")) (keys (to_lpm (F := Qc))))
    by (simpl; tauto).
  split; [exact A | split; [exact B | split; [exact C|]]].
  split; [|split].
  - exact (proj1 (identity_conversion_exact (Q2Qc 3) "PSI") A).
  - exact (proj1 (proj2 (identity_conversion_exact (Q2Qc 3) "Fahrenheit")) B).
  - exact (proj2 (proj2 (identity_conversion_exact (Q2Qc 3) "M3/H")) C).
Defined.

(** ** Binary64: the literals, the self-test values, overflow and rounding *)

(** The decimal literals of the program, read as binary64. *)
Example binary64_literals :
  to_pa (F := float)
  = [ ("psi", 6894.757%float); ("bar", 100000%float); ("kpa", 1000%float);
      ("mpa", 1000000%float); ("pa", 1%float) ]
  /\ to_lpm (F := float)
     = [ ("gpm", 3.78541%float); ("lpm", 1%float);
         ("m3h", 16.6667%float); ("m3/h", 16.6667%float) ]
  /\ of_decimal (F := float) 27315 2 = 273.15%float.
Proof. repeat split; reflexivity. Qed.

(** C3 (as stated, refuted): 1e305 is finite, "mpa" and "bar" are valid,
    and 1e305 times the ratio 1000000/100000 is finite (about 1e306); but
    [convert_pressure] multiplies first, the product overflows, and the
    call returns infinity. *)
Lemma pressure_product_overflows :
  get (to_pa (F := float)) "mpa" = Some (of_int 1000000)
  /\ get (to_pa (F := float)) "bar" = Some (of_int 100000)
  /\ Binary64.finite 1e305%float = true
  /\ Binary64.finite
       (times_ratio 1e305%float (of_int 1000000) (of_int 100000)) = true
  /\ convert_pressure 1e305%float "mpa" "bar" = Ok infinity
  /\ convert_pressure 1e305%float "mpa" "bar"
     <> Ok (times_ratio 1e305%float (of_int 1000000) (of_int 100000)).
Proof.
  repeat split; try reflexivity. not_same_finiteness.
Qed.

(** C3 (amended): for valid units [convert_pressure] returns
    (value * from_factor) / to_factor, the product being taken first;
    the factors are those of the table, psi = 6894.757, bar = 100000,
    kpa = 1000, mpa = 1000000, pa = 1.  Over exact arithmetic this is the
    value times the ratio of the factors.  In binary64,
    [convert_pressure 100 "psi" "bar"] is within 0.001 of 6.8948 and
    [convert_pressure 1 "bar" "kpa"] within 0.001 of 100. *)
Theorem pressure_product_then_quotient :
  (forall (F : Type) (num : Num F) (v f t : F) (from_unit to_unit : string),
      get to_pa (lower from_unit) = Some f ->
      get to_pa (lower to_unit) = Some t ->
      convert_pressure v from_unit to_unit = Ok (div (mul v f) t))
  /\ (forall (v f t : Qc) (from_unit to_unit : string),
         get to_pa (lower from_unit) = Some f ->
         get to_pa (lower to_unit) = Some t ->
         convert_pressure v from_unit to_unit = Ok (times_ratio v f t))
  /\ (forall (F : Type) (num : Num F) (u : string),
         In u ["psi"; "bar"; "kpa"; "mpa"; "pa"]
         <-> exists f : F, get to_pa u = Some f)
  /\ (exists x, convert_pressure 100%float "psi" "bar" = Ok x
                /\ Binary64.within (1 # 1000) (68948 # 10000) x)
  /\ (exists x, convert_pressure 1%float "bar" "kpa" = Ok x
                /\ Binary64.within (1 # 1000) 100 x).
Proof.
  split; [|split; [|split; [|split]]].
  - intros F num v f t from_unit to_unit Gf Gt.
    rewrite convert_pressure_scale. now apply scale_through_ok.
  - intros v f t from_unit to_unit Gf Gt.
    rewrite convert_pressure_scale.
    rewrite (scale_through_ok _ _ v f t _ _ Gf Gt).
    f_equal. apply Exact.product_quotient_is_ratio.
  - intros F num u. rewrite get_Some_keys. reflexivity.
  - eexists. split; [vm_compute; reflexivity|]. vm_compute. reflexivity.
  - eexists. split; [vm_compute; reflexivity|]. vm_compute. reflexivity.
Qed.

Lemma pressure_product_then_quotient_witness :
  get (to_pa (F := float)) (lower "PSI") = Some 6894.757%float
  /\ get (to_pa (F := float)) (lower "Bar") = Some 100000%float
  /\ convert_pressure 100%float "PSI" "Bar"
     = Ok (div (mul 100%float 6894.757%float) 100000%float).
Proof.
  assert (A : get (to_pa (F := float)) (lower "PSI") = Some 6894.757%float)
    by reflexivity.
  assert (B : get (to_pa (F := float)) (lower "Bar") = Some 100000%float)
    by reflexivity.
  split; [exact A | split; [exact B|]].
  exact (proj1 pressure_product_then_quotient float float_Num
           100%float 6894.757%float 100000%float "PSI" "Bar" A B).
Defined.

(** C5 (as stated, refuted): 2e307 is finite, "m3h" and "gpm" are valid,
    and 2e307 times the ratio 16.6667/3.78541 is finite; but
    [convert_flow] multiplies first, the product overflows, and the call
    returns infinity. *)
Lemma flow_product_overflows :
  get (to_lpm (F := float)) "m3h" = Some 16.6667%float
  /\ get (to_lpm (F := float)) "gpm" = Some 3.78541%float
  /\ Binary64.finite 2e307%float = true
  /\ Binary64.finite
       (times_ratio 2e307%float 16.6667%float 3.78541%float) = true
  /\ convert_flow 2e307%float "m3h" "gpm" = Ok infinity
  /\ convert_flow 2e307%float "m3h" "gpm"
     <> Ok (times_ratio 2e307%float 16.6667%float 3.78541%float).
Proof.
  repeat split; try reflexivity. not_same_finiteness.
Qed.

(** C5 (amended): for units whose lowercased form with every slash
    removed is gpm, lpm or m3h, [convert_flow] returns
    (value * from_factor) / to_factor, the product being taken first; the
    factors are gpm = 3.78541, lpm = 1, m3h = 16.6667, and "m3/h" and
    "m3h" give the same result.  Over exact arithmetic this is the value
    times the ratio of the factors.  In binary64,
    [convert_flow 1 "gpm" "lpm"] is within 0.001 of 3.78541 and
    [convert_flow 1 "m3h" "lpm"] within 0.001 of 16.6667. *)
Theorem flow_product_then_quotient :
  let key := fun u => replace "/" "" (lower u) in
  (forall (F : Type) (num : Num F) (v f t : F) (from_unit to_unit : string),
      get to_lpm (key from_unit) = Some f ->
      get to_lpm (key to_unit) = Some t ->
      convert_flow v from_unit to_unit = Ok (div (mul v f) t))
  /\ (forall (v f t : Qc) (from_unit to_unit : string),
         get to_lpm (key from_unit) = Some f ->
         get to_lpm (key to_unit) = Some t ->
         convert_flow v from_unit to_unit = Ok (times_ratio v f t))
  /\ (forall (F : Type) (num : Num F) (u : string),
         In (key u) ["gpm"; "lpm"; "m3h"]
         <-> exists f : F, get to_lpm (key u) = Some f)
  /\ (forall (F : Type) (num : Num F) (v : F) (u : string),
         convert_flow v "m3/h" u = convert_flow v "m3h" u
         /\ convert_flow v u "m3/h" = convert_flow v u "m3h")
  /\ (exists x, convert_flow 1%float "gpm" "lpm" = Ok x
                /\ Binary64.within (1 # 1000) (378541 # 100000) x)
  /\ (exists x, convert_flow 1%float "m3h" "lpm" = Ok x
                /\ Binary64.within (1 # 1000) (166667 # 10000) x).
Proof.
  intros key; subst key; cbv beta.
  split; [|split; [|split; [|split; [|split]]]].
  - intros F num v f t from_unit to_unit Gf Gt.
    rewrite convert_flow_scale. now apply scale_through_ok.
  - intros v f t from_unit to_unit Gf Gt.
    rewrite convert_flow_scale.
    rewrite (scale_through_ok _ _ v f t _ _ Gf Gt).
    f_equal. apply Exact.product_quotient_is_ratio.
  - intros F num u. rewrite get_Some_keys, flow_keys.
    split; [simpl; tauto|].
    intros [E | [E | [E | [E | []]]]]; try (rewrite <- E; simpl; tauto).
    exfalso. revert E. generalize (lower u). intros s E.
    assert (X : replace "/" "" (replace "/" "" s) = replace "/" "" "m3/h")
      by now rewrite <- E.
    rewrite replace_empty_idem, <- E in X. discriminate X.
  - intros F num v u. split; reflexivity.
  - eexists. split; [vm_compute; reflexivity|]. vm_compute. reflexivity.
  - eexists. split; [vm_compute; reflexivity|]. vm_compute. reflexivity.
Qed.

Lemma flow_product_then_quotient_witness :
  get (to_lpm (F := float)) (replace "/" "" (lower "M3/H"))
  = Some 16.6667%float
  /\ get (to_lpm (F := float)) (replace "/" "" (lower "GPM"))
     = Some 3.78541%float
  /\ convert_flow 50%float "M3/H" "GPM"
     = Ok (div (mul 50%float 16.6667%float) 3.78541%float).
Proof.
  assert (A : get (to_lpm (F := float)) (replace "/" "" (lower "M3/H"))
              = Some 16.6667%float) by reflexivity.
  assert (B : get (to_lpm (F := float)) (replace "/" "" (lower "GPM"))
              = Some 3.78541%float) by reflexivity.
  split; [exact A | split; [exact B|]].
  exact (proj1 flow_product_then_quotient float float_Num
           50%float 16.6667%float 3.78541%float "M3/H" "GPM" A B).
Defined.

(** C4: for valid units [convert_temperature] takes the value to Celsius
    by the map of the source scale (identity; (v - 32) * 5 / 9;
    v - 273.15) and from there to the target scale by the map of the
    target (identity; (c * 9 / 5) + 32; c + 273.15), which over exact
    arithmetic is the inverse of that scale's map to Celsius.  In
    binary64, [convert_temperature 212 "f" "c"] is within 0.01 of 100 and
    [convert_temperature 0 "c" "k"] within 0.01 of 273.15. *)
Theorem temperature_through_celsius :
  (forall (F : Type) (num : Num F) (v : F) (from_unit to_unit : string)
          (sf st : scale),
      get unit_scale (lower from_unit) = Some sf ->
      get unit_scale (lower to_unit) = Some st ->
      convert_temperature v from_unit to_unit
      = Ok (Some (from_celsius st (to_celsius sf v))))
  /\ (forall u : string,
         In u (valid_units) <-> exists s, get unit_scale u = Some s)
  /\ (forall (s : scale) (x : Qc),
         from_celsius s (to_celsius s x) = x
         /\ to_celsius s (from_celsius s x) = x)
  /\ (exists x, convert_temperature 212%float "f" "c" = Ok (Some x)
                /\ Binary64.within (1 # 100) 100 x)
  /\ (exists x, convert_temperature 0%float "c" "k" = Ok (Some x)
                /\ Binary64.within (1 # 100) (27315 # 100) x).
Proof.
  split; [|split; [|split; [|split]]].
  - intros F num v from_unit to_unit sf st Gf Gt.
    now apply convert_temperature_scales.
  - intros u. rewrite get_Some_keys. reflexivity.
  - exact Exact.temperature_inverse.
  - eexists. split; [vm_compute; reflexivity|]. vm_compute. reflexivity.
  - eexists. split; [vm_compute; reflexivity|]. vm_compute. reflexivity.
Qed.

Lemma temperature_through_celsius_witness :
  get unit_scale (lower "Fahrenheit") = Some Fahrenheit
  /\ get unit_scale (lower "K") = Some Kelvin
  /\ convert_temperature 212%float "Fahrenheit" "K"
     = Ok (Some (from_celsius Kelvin (to_celsius Fahrenheit 212%float))).
Proof.
  assert (A : get unit_scale (lower "Fahrenheit") = Some Fahrenheit)
    by reflexivity.
  assert (B : get unit_scale (lower "K") = Some Kelvin) by reflexivity.
  split; [exact A | split; [exact B|]].
  exact (proj1 temperature_through_celsius float float_Num
           212%float "Fahrenheit" "K" Fahrenheit Kelvin A B).
Defined.




(** In binary64 the identity conversion of a scaled unit need not return
    its argument: 3 psi comes back as the next float above 3. *)
Example identity_rounds_in_binary64 :
  convert_pressure 3%float "psi" "psi" = Ok 3.0000000000000004%float
  /\ convert_pressure 3%float "psi" "psi" <> Ok 3%float.
Proof.
  split; [reflexivity|].
  intros E.
  apply (f_equal (fun r => match r with
                           | Ok x => PrimFloat.eqb x 3
                           | Raise _ => false
                           end)) in E.
  vm_compute in E. discriminate E.
Qed.

(** ** Further properties of the converters *)

Lemma pressure_keys_cases (u : string) :
  In u ["psi"; "bar"; "kpa"; "mpa"; "pa"] ->
  u = "psi" \/ u = "bar" \/ u = "kpa" \/ u = "mpa" \/ u = "pa".
Proof. simpl. intuition auto. Qed.

Lemma flow_keys_cases (u : string) :
  In (replace "/" "" u) ["gpm"; "lpm"; "m3h"; "m3/h"] ->
  replace "/" "" u = "gpm" \/ replace "/" "" u = "lpm"
  \/ replace "/" "" u = "m3h".
Proof.
  intros [E | [E | [E | [E | []]]]]; auto.
  exfalso.
  assert (X : replace "/" "" (replace "/" "" u) = replace "/" "" "m3/h")
    by now rewrite <- E.
  rewrite replace_empty_idem, <- E in X. discriminate X.
Qed.

Lemma lower_app (a b : string) : lower (a ++ b) = lower a ++ lower b.
Proof. induction a as [| c a IH]; simpl; [reflexivity | now rewrite IH]. Qed.

Lemma replace_empty_app (c : ascii) (a b : string) :
  replace c "" (a ++ b) = replace c "" a ++ replace c "" b.
Proof.
  induction a as [| x a IH]; simpl; [reflexivity|].
  destruct (Ascii.eqb x c); simpl; now rewrite IH.
Qed.

(** X6: a slash anywhere in a flow unit is ignored, in either position,
    and no unit ever matches the table's "m3/h" entry. *)
Theorem flow_ignores_slashes
  {F : Type} {num : Num F} (v : F) (a b other : string) :
  convert_flow v (a ++ "/" ++ b) other = convert_flow v (a ++ b) other
  /\ convert_flow v other (a ++ "/" ++ b) = convert_flow v other (a ++ b)
  /\ replace "/" "" (lower other) <> "m3/h".
Proof.
  assert (E : replace "/" "" (lower (a ++ "/" ++ b))
              = replace "/" "" (lower (a ++ b))).
  { now rewrite !lower_app, !replace_empty_app. }
  unfold convert_flow; cbv zeta. rewrite E.
  split; [reflexivity | split; [reflexivity|]].
  intros X.
  assert (Y : replace "/" "" (replace "/" "" (lower other))
              = replace "/" "" "m3/h") by now rewrite X.
  rewrite replace_empty_idem, X in Y. discriminate Y.
Qed.

(** X10: the three domains share no unit: a pair of units for which one
    converter returns a value makes the other two raise the
    unsupported-unit error. *)
Theorem domains_are_disjoint
  {F : Type} {num : Num F} (v w : F) (a b : string) :
  ((exists x, convert_pressure v a b = Ok x) ->
   convert_temperature w a b = Raise (ValueError temperature_msg)
   /\ convert_flow w a b = Raise (ValueError flow_msg))
  /\ ((exists x, convert_temperature v a b = Ok x) ->
      convert_pressure w a b = Raise (ValueError (pressure_msg (F := F)))
      /\ convert_flow w a b = Raise (ValueError flow_msg))
  /\ ((exists x, convert_flow v a b = Ok x) ->
      convert_pressure w a b = Raise (ValueError (pressure_msg (F := F)))
      /\ convert_temperature w a b = Raise (ValueError temperature_msg)).
Proof.
  assert (NotP : forall u, ~ In (lower u) (keys (to_pa (F := F))) ->
                 forall t, convert_pressure w u t
                           = Raise (ValueError (pressure_msg (F := F)))).
  { intros u N t. rewrite convert_pressure_scale.
    now apply scale_through_raise_l. }
  assert (NotF : forall u,
             ~ In (replace "/" "" (lower u)) (keys (to_lpm (F := F))) ->
             forall t, convert_flow w u t = Raise (ValueError flow_msg)).
  { intros u N t. rewrite convert_flow_scale.
    now apply scale_through_raise_l. }
  assert (P : (exists x, convert_pressure v a b = Ok x) ->
              In (lower a) (keys (to_pa (F := F)))).
  { intros [x E].
    destruct (in_dec string_dec (lower a) (keys (to_pa (F := F))))
      as [I | N]; [exact I|].
    rewrite convert_pressure_scale in E.
    rewrite (scale_through_raise_l _ _ v _ (lower b) N) in E.
    discriminate E. }
  assert (T : (exists x, convert_temperature v a b = Ok x) ->
              In (lower a) valid_units).
  { intros [x E].
    destruct (in_dec string_dec (lower a) valid_units) as [I | N];
      [exact I|].
    rewrite (convert_temperature_raise_from v a b N) in E. discriminate E. }
  assert (L : (exists x, convert_flow v a b = Ok x) ->
              In (replace "/" "" (lower a)) (keys (to_lpm (F := F)))).
  { intros [x E].
    destruct (in_dec string_dec (replace "/" "" (lower a))
                (keys (to_lpm (F := F)))) as [I | N]; [exact I|].
    rewrite convert_flow_scale in E.
    rewrite (scale_through_raise_l _ _ v _
               (replace "/" "" (lower b)) N) in E.
    discriminate E. }
  split; [|split].
  - intros X. apply P, pressure_keys_cases in X. split.
    + apply convert_temperature_raise_from.
      destruct X as [E | [E | [E | [E | E]]]]; rewrite E; simpl;
        intros Y; repeat destruct Y as [Y | Y]; try discriminate Y; exact Y.
    + apply NotF.
      destruct X as [E | [E | [E | [E | E]]]]; rewrite E; simpl;
        intros Y; repeat destruct Y as [Y | Y]; try discriminate Y; exact Y.
  - intros X. apply T, valid_units_cases in X. split.
    + apply NotP.
      destruct X as [E | [E | [E | [E | [E | E]]]]]; rewrite E; simpl;
        intros Y; repeat destruct Y as [Y | Y]; try discriminate Y; exact Y.
    + apply NotF.
      destruct X as [E | [E | [E | [E | [E | E]]]]]; rewrite E; simpl;
        intros Y; repeat destruct Y as [Y | Y]; try discriminate Y; exact Y.
  - intros X. apply L in X. rewrite flow_keys in X.
    apply flow_keys_cases in X.
    assert (Q : forall k, In (lower a) k ->
                          In (replace "/" "" (lower a))
                             (map (replace "/" "") k)).
    { intros k. apply in_map. }
    split.
    + apply NotP. intros Y. apply Q in Y. simpl in Y.
      destruct X as [E | [E | E]]; rewrite E in Y;
        repeat destruct Y as [Y | Y]; try discriminate Y; exact Y.
    + apply convert_temperature_raise_from.
      intros Y. apply Q in Y. simpl in Y.
      destruct X as [E | [E | E]]; rewrite E in Y;
        repeat destruct Y as [Y | Y]; try discriminate Y; exact Y.
Qed.

Lemma domains_are_disjoint_witness :
  (exists x, convert_pressure 100%float "psi" "bar" = Ok x)
  /\ convert_temperature 20%float "psi" "bar"
     = Raise (ValueError temperature_msg)
  /\ convert_flow 20%float "psi" "bar" = Raise (ValueError flow_msg).
Proof.
  assert (A : exists x, convert_pressure 100%float "psi" "bar" = Ok x)
    by (eexists; vm_compute; reflexivity).
  split; [exact A|].
  exact (proj1 (domains_are_disjoint 100%float 20%float "psi" "bar") A).
Defined.

(** ** Exact arithmetic: chains, order and linearity *)

Module ExactOrder.

Local Open Scope Qc_scope.

Lemma positive_by_numerator (q : Qc) :
  (0 <? Qnum (this q))%Z = true -> 0 < q /\ 0 < / q.
Proof.
  intros P. apply Z.ltb_lt in P.
  assert (Pq : 0 < q).
  { unfold Qclt, Qlt. simpl. lia. }
  split; [exact Pq|].
  unfold Qclt. simpl. rewrite Qred_correct.
  apply Qinv_lt_0_compat. exact Pq.
Qed.

Lemma to_pa_positive (k : string) (f : Qc) :
  get to_pa k = Some f -> 0 < f /\ 0 < / f.
Proof.
  simpl.
  repeat (destruct (String.eqb k _);
          [intros G; injection G as <-;
           apply positive_by_numerator; reflexivity|]).
  discriminate.
Qed.

Lemma to_lpm_positive (k : string) (f : Qc) :
  get to_lpm k = Some f -> 0 < f /\ 0 < / f.
Proof.
  simpl.
  repeat (destruct (String.eqb k _);
          [intros G; injection G as <-;
           apply positive_by_numerator; reflexivity|]).
  discriminate.
Qed.

Lemma scaling_monotone (v w f t : Qc) :
  0 < f -> 0 < / t -> v <= w -> div (mul v f) t <= div (mul w f) t.
Proof.
  intros Pf Pt L. cbn [mul div Qc_Num]. unfold Qcdiv.
  apply Qcmult_le_compat_r; [|now apply Qclt_le_weak].
  apply Qcmult_le_compat_r; [exact L | now apply Qclt_le_weak].
Qed.

Lemma to_celsius_monotone (s : scale) (v w : Qc) :
  v <= w -> to_celsius s v <= to_celsius s w.
Proof.
  intros L.
  assert (X9 : 0 < of_int (F := Qc) 9 /\ 0 < / of_int (F := Qc) 9)
    by (apply positive_by_numerator; reflexivity).
  destruct X9 as [_ P9].
  assert (X5 : 0 < of_int (F := Qc) 5 /\ 0 < / of_int (F := Qc) 5)
    by (apply positive_by_numerator; reflexivity).
  destruct X5 as [P5 _].
  destruct s; unfold to_celsius; cbn [add sub mul div Qc_Num].
  - exact L.
  - unfold Qcdiv.
    apply Qcmult_le_compat_r; [|now apply Qclt_le_weak].
    apply Qcmult_le_compat_r; [|now apply Qclt_le_weak].
    unfold Qcminus. apply Qcplus_le_compat; [exact L | apply Qcle_refl].
  - unfold Qcminus. apply Qcplus_le_compat; [exact L | apply Qcle_refl].
Qed.

Lemma from_celsius_monotone (s : scale) (v w : Qc) :
  v <= w -> from_celsius s v <= from_celsius s w.
Proof.
  intros L.
  assert (X5 : 0 < of_int (F := Qc) 5 /\ 0 < / of_int (F := Qc) 5)
    by (apply positive_by_numerator; reflexivity).
  destruct X5 as [_ P5].
  assert (X9 : 0 < of_int (F := Qc) 9 /\ 0 < / of_int (F := Qc) 9)
    by (apply positive_by_numerator; reflexivity).
  destruct X9 as [P9 _].
  destruct s; unfold from_celsius; cbn [add sub mul div Qc_Num].
  - exact L.
  - apply Qcplus_le_compat; [|apply Qcle_refl]. unfold Qcdiv.
    apply Qcmult_le_compat_r; [|now apply Qclt_le_weak].
    apply Qcmult_le_compat_r; [exact L | now apply Qclt_le_weak].
  - apply Qcplus_le_compat; [exact L | apply Qcle_refl].
Qed.

End ExactOrder.

Section ExactTables.

Local Open Scope Qc_scope.

Variables (table : dict Qc) (msg : string).
Hypothesis table_positive :
  forall k f, get table k = Some f -> 0 < f /\ 0 < / f.

Lemma table_entry_nonzero (k : string) (f : Qc) :
  get table k = Some f -> f <> Q2Qc 0.
Proof.
  intros G E. destruct (table_positive k f G) as [P _].
  rewrite E in P. discriminate P.
Qed.

Lemma scale_through_chain (v : Qc) (a b c : string) :
  In a (keys table) -> In b (keys table) -> In c (keys table) ->
  exists r, scale_through table msg v a b = Ok r
            /\ scale_through table msg r b c
               = scale_through table msg v a c.
Proof.
  intros A B C.
  apply get_Some_keys in A, B, C.
  destruct A as [fa A], B as [fb B], C as [fc C].
  exists (div (mul v fa) fb).
  rewrite (scale_through_ok table msg v fa fb a b A B).
  rewrite (scale_through_ok table msg _ fb fc b c B C).
  rewrite (scale_through_ok table msg v fa fc a c A C).
  split; [reflexivity|]. f_equal. cbn [mul div Qc_Num].
  field. split; eapply table_entry_nonzero; eassumption.
Qed.

Lemma scale_through_monotone (v w : Qc) (a b : string) :
  v <= w -> In a (keys table) -> In b (keys table) ->
  exists x y, scale_through table msg v a b = Ok x
              /\ scale_through table msg w a b = Ok y /\ x <= y.
Proof.
  intros L A B.
  apply get_Some_keys in A, B. destruct A as [f A], B as [t B].
  exists (div (mul v f) t), (div (mul w f) t).
  rewrite !(scale_through_ok table msg _ f t a b A B).
  split; [reflexivity | split; [reflexivity|]].
  apply ExactOrder.scaling_monotone; trivial.
  - now destruct (table_positive a f A).
  - now destruct (table_positive b t B).
Qed.

Lemma scale_through_linear (k v w : Qc) (a b : string) :
  In a (keys table) -> In b (keys table) ->
  exists x y, scale_through table msg v a b = Ok x
              /\ scale_through table msg w a b = Ok y
              /\ scale_through table msg (v + w) a b = Ok (x + y)
              /\ scale_through table msg (k * v) a b = Ok (k * x).
Proof.
  intros A B.
  apply get_Some_keys in A, B. destruct A as [f A], B as [t B].
  exists (div (mul v f) t), (div (mul w f) t).
  rewrite !(scale_through_ok table msg _ f t a b A B).
  split; [reflexivity | split; [reflexivity|]].
  split; f_equal; cbn [mul div Qc_Num]; unfold Qcdiv; ring.
Qed.

End ExactTables.

(** X1: over exact arithmetic conversions chain: for supported units A, B
    and C of a domain, converting from A to B and the result from B to C
    gives what converting from A to C gives directly. *)
Theorem conversion_chain_exact (v : Qc) (a b c : string) :
  (In (lower a) (keys (to_pa (F := Qc))) ->
   In (lower b) (keys (to_pa (F := Qc))) ->
   In (lower c) (keys (to_pa (F := Qc))) ->
   exists r, convert_pressure v a b = Ok r
             /\ convert_pressure r b c = convert_pressure v a c)
  /\ (In (lower a) valid_units ->
      In (lower b) valid_units ->
      In (lower c) valid_units ->
      exists r, convert_temperature v a b = Ok (Some r)
                /\ convert_temperature r b c = convert_temperature v a c)
  /\ (In (replace "/" "" (lower a)) (keys (to_lpm (F := Qc))) ->
      In (replace "/" "" (lower b)) (keys (to_lpm (F := Qc))) ->
      In (replace "/" "" (lower c)) (keys (to_lpm (F := Qc))) ->
      exists r, convert_flow v a b = Ok r
                /\ convert_flow r b c = convert_flow v a c).
Proof.
  split; [|split].
  - intros A B C.
    destruct (scale_through_chain to_pa pressure_msg
                ExactOrder.to_pa_positive v _ _ _ A B C) as (r & R1 & R2).
    exists r. now rewrite !convert_pressure_scale.
  - intros A B C.
    destruct (valid_unit_scale _ A) as [sa Ga].
    destruct (valid_unit_scale _ B) as [sb Gb].
    destruct (valid_unit_scale _ C) as [sc Gc].
    exists (from_celsius sb (to_celsius sa v)).
    rewrite (convert_temperature_scales v a b sa sb Ga Gb).
    rewrite (convert_temperature_scales _ b c sb sc Gb Gc).
    rewrite (convert_temperature_scales v a c sa sc Ga Gc).
    split; [reflexivity|].
    now rewrite (proj2 (Exact.temperature_inverse sb _)).
  - intros A B C.
    destruct (scale_through_chain to_lpm flow_msg
                ExactOrder.to_lpm_positive v _ _ _ A B C) as (r & R1 & R2).
    exists r. now rewrite !convert_flow_scale.
Qed.

Lemma conversion_chain_exact_witness :
  In (lower "psi") (keys (to_pa (F := Qc)))
  /\ In (lower "bar") (keys (to_pa (F := Qc)))
  /\ In (lower "kPa") (keys (to_pa (F := Qc)))
  /\ exists r, convert_pressure (Q2Qc 100) "psi" "bar" = Ok r
               /\ convert_pressure r "bar" "kPa"
                  = convert_pressure (Q2Qc 100) "psi" "kPa".
Proof.
  assert (A : In (lower "psi") (keys (to_pa (F := Qc)))) by (simpl; tauto).
  assert (B : In (lower "bar") (keys (to_pa (F := Qc)))) by (simpl; tauto).
  assert (C : In (lower "kPa") (keys (to_pa (F := Qc)))) by (simpl; tauto).
  split; [exact A | split; [exact B | split; [exact C|]]].
  exact (proj1 (conversion_chain_exact (Q2Qc 100) "psi" "bar" "kPa") A B C).
Defined.

(** X2: over exact arithmetic every conversion between supported units
    preserves order: a value that is not larger converts to a value that
    is not larger, in all three domains. *)
Theorem conversion_monotone_exact (v w : Qc) (a b : string) :
  (v <= w)%Qc ->
  (In (lower a) (keys (to_pa (F := Qc))) ->
   In (lower b) (keys (to_pa (F := Qc))) ->
   exists x y, convert_pressure v a b = Ok x
               /\ convert_pressure w a b = Ok y /\ (x <= y)%Qc)
  /\ (In (lower a) valid_units ->
      In (lower b) valid_units ->
      exists x y, convert_temperature v a b = Ok (Some x)
                  /\ convert_temperature w a b = Ok (Some y) /\ (x <= y)%Qc)
  /\ (In (replace "/" "" (lower a)) (keys (to_lpm (F := Qc))) ->
      In (replace "/" "" (lower b)) (keys (to_lpm (F := Qc))) ->
      exists x y, convert_flow v a b = Ok x
                  /\ convert_flow w a b = Ok y /\ (x <= y)%Qc).
Proof.
  intros L. split; [|split].
  - intros A B. rewrite !convert_pressure_scale.
    now apply scale_through_monotone;
      [apply ExactOrder.to_pa_positive | | |].
  - intros A B.
    destruct (valid_unit_scale _ A) as [sa Ga].
    destruct (valid_unit_scale _ B) as [sb Gb].
    exists (from_celsius sb (to_celsius sa v)),
           (from_celsius sb (to_celsius sa w)).
    rewrite !(convert_temperature_scales _ a b sa sb Ga Gb).
    split; [reflexivity | split; [reflexivity|]].
    now apply ExactOrder.from_celsius_monotone,
              ExactOrder.to_celsius_monotone.
  - intros A B. rewrite !convert_flow_scale.
    now apply scale_through_monotone;
      [apply ExactOrder.to_lpm_positive | | |].
Qed.

Lemma conversion_monotone_exact_witness :
  (Q2Qc 20 <= Q2Qc 30)%Qc
  /\ In (lower "C") valid_units
  /\ In (lower "Fahrenheit") valid_units
  /\ exists x y,
       convert_temperature (Q2Qc 20) "C" "Fahrenheit" = Ok (Some x)
       /\ convert_temperature (Q2Qc 30) "C" "Fahrenheit" = Ok (Some y)
       /\ (x <= y)%Qc.
Proof.
  assert (L : (Q2Qc 20 <= Q2Qc 30)%Qc) by (vm_compute; discriminate).
  assert (A : In (lower "C") valid_units) by (simpl; tauto).
  assert (B : In (lower "Fahrenheit") valid_units) by (simpl; tauto).
  split; [exact L | split; [exact A | split; [exact B|]]].
  exact (proj1 (proj2
    (conversion_monotone_exact (Q2Qc 20) (Q2Qc 30) "C" "Fahrenheit" L))
    A B).
Defined.

(** X3: over exact arithmetic the pressure and flow converters are linear
    in the value: the conversion of a sum is the sum of the conversions,
    and the conversion of a multiple is the multiple of the conversion. *)
Theorem scaling_linear_exact (k v w : Qc) (a b : string) :
  (In (lower a) (keys (to_pa (F := Qc))) ->
   In (lower b) (keys (to_pa (F := Qc))) ->
   exists x y, convert_pressure v a b = Ok x
               /\ convert_pressure w a b = Ok y
               /\ convert_pressure (v + w)%Qc a b = Ok (x + y)%Qc
               /\ convert_pressure (k * v)%Qc a b = Ok (k * x)%Qc)
  /\ (In (replace "/" "" (lower a)) (keys (to_lpm (F := Qc))) ->
      In (replace "/" "" (lower b)) (keys (to_lpm (F := Qc))) ->
      exists x y, convert_flow v a b = Ok x
                  /\ convert_flow w a b = Ok y
                  /\ convert_flow (v + w)%Qc a b = Ok (x + y)%Qc
                  /\ convert_flow (k * v)%Qc a b = Ok (k * x)%Qc).
Proof.
  split.
  - intros A B. rewrite !convert_pressure_scale.
    now apply scale_through_linear.
  - intros A B. rewrite !convert_flow_scale.
    now apply scale_through_linear.
Qed.

Lemma scaling_linear_exact_witness :
  In (replace "/" "" (lower "m3/h")) (keys (to_lpm (F := Qc)))
  /\ In (replace "/" "" (lower "GPM")) (keys (to_lpm (F := Qc)))
  /\ exists x y,
       convert_flow (Q2Qc 2) "m3/h" "GPM" = Ok x
       /\ convert_flow (Q2Qc 3) "m3/h" "GPM" = Ok y
       /\ convert_flow (Q2Qc 2 + Q2Qc 3)%Qc "m3/h" "GPM" = Ok (x + y)%Qc
       /\ convert_flow (Q2Qc 7 * Q2Qc 2)%Qc "m3/h" "GPM" = Ok (Q2Qc 7 * x)%Qc.
Proof.
  assert (A : In (replace "/" "" (lower "m3/h")) (keys (to_lpm (F := Qc))))
    by (simpl; tauto).
  assert (B : In (replace "/" "" (lower "GPM")) (keys (to_lpm (F := Qc))))
    by (simpl; tauto).
  split; [exact A | split; [exact B|]].
  exact (proj2
    (scaling_linear_exact (Q2Qc 7) (Q2Qc 2) (Q2Qc 3) "m3/h" "GPM") A B).
Defined.

(** ** Binary64: values that are not finite, and zero *)

Ltac by_pressure_units A B :=
  rewrite pressure_keys in A, B;
  apply pressure_keys_cases in A, B;
  rewrite !convert_pressure_scale;
  destruct A as [A | [A | [A | [A | A]]]];
  destruct B as [B | [B | [B | [B | B]]]];
  rewrite A, B; repeat split; vm_compute; reflexivity.

Ltac by_flow_units A B :=
  rewrite flow_keys in A, B;
  apply flow_keys_cases in A, B;
  rewrite !convert_flow_scale;
  destruct A as [A | [A | A]]; destruct B as [B | [B | B]];
  rewrite A, B; repeat split; vm_compute; reflexivity.

Ltac by_temperature_units A B :=
  apply valid_units_cases in A, B;
  unfold convert_temperature; cbv zeta;
  destruct A as [A | [A | [A | [A | [A | A]]]]];
  destruct B as [B | [B | [B | [B | [B | B]]]]];
  rewrite A, B; repeat split; vm_compute; reflexivity.

(** X4: the converters do not reject values that are not finite: for
    every pair of supported units, in binary64, plus and minus infinity
    convert to themselves and NaN converts to NaN. *)
Theorem nonfinite_values_pass_through (a b : string) :
  (In (lower a) (keys (to_pa (F := float))) ->
   In (lower b) (keys (to_pa (F := float))) ->
   convert_pressure infinity a b = Ok infinity
   /\ convert_pressure neg_infinity a b = Ok neg_infinity
   /\ convert_pressure nan a b = Ok nan)
  /\ (In (lower a) valid_units ->
      In (lower b) valid_units ->
      convert_temperature infinity a b = Ok (Some infinity)
      /\ convert_temperature neg_infinity a b = Ok (Some neg_infinity)
      /\ convert_temperature nan a b = Ok (Some nan))
  /\ (In (replace "/" "" (lower a)) (keys (to_lpm (F := float))) ->
      In (replace "/" "" (lower b)) (keys (to_lpm (F := float))) ->
      convert_flow infinity a b = Ok infinity
      /\ convert_flow neg_infinity a b = Ok neg_infinity
      /\ convert_flow nan a b = Ok nan).
Proof.
  split; [|split]; intros A B.
  - by_pressure_units A B.
  - by_temperature_units A B.
  - by_flow_units A B.
Qed.

Lemma nonfinite_values_pass_through_witness :
  In (lower "K") valid_units
  /\ In (lower "f") valid_units
  /\ convert_temperature neg_infinity "K" "f" = Ok (Some neg_infinity).
Proof.
  assert (A : In (lower "K") valid_units) by (simpl; tauto).
  assert (B : In (lower "f") valid_units) by (simpl; tauto).
  split; [exact A | split; [exact B|]].
  exact (proj1 (proj2 (proj1 (proj2
    (nonfinite_values_pass_through "K" "f")) A B))).
Defined.

(** X5: in binary64 zero converts to exactly zero for every pair of
    supported pressure units and every pair of supported flow units. *)
Theorem zero_converts_to_zero (a b : string) :
  (In (lower a) (keys (to_pa (F := float))) ->
   In (lower b) (keys (to_pa (F := float))) ->
   convert_pressure 0%float a b = Ok 0%float)
  /\ (In (replace "/" "" (lower a)) (keys (to_lpm (F := float))) ->
      In (replace "/" "" (lower b)) (keys (to_lpm (F := float))) ->
      convert_flow 0%float a b = Ok 0%float).
Proof.
  split; intros A B.
  - by_pressure_units A B.
  - by_flow_units A B.
Qed.

Lemma zero_converts_to_zero_witness :
  In (lower "MPa") (keys (to_pa (F := float)))
  /\ In (lower "psi") (keys (to_pa (F := float)))
  /\ convert_pressure 0%float "MPa" "psi" = Ok 0%float.
Proof.
  assert (A : In (lower "MPa") (keys (to_pa (F := float))))
    by (simpl; tauto).
  assert (B : In (lower "psi") (keys (to_pa (F := float))))
    by (simpl; tauto).
  split; [exact A | split; [exact B|]].
  exact (proj1 (zero_converts_to_zero "MPa" "psi") A B).
Defined.

(** ** The command line: how a run ends *)

Section MainFacts.

Context {F : Type} {num : Num F}.
Variable str_float : F -> string.
Variable fixed : nat -> F -> string.
Variable upper : string -> string.

Lemma try_body_cases (args : arguments) :
  In (type args) ["pressure"; "temp"; "flow"] ->
  (exists line, try_body str_float fixed upper args = inr [line])
  \/ (exists msg,
         try_body str_float fixed upper args
         = inl (Exception (ValueError msg))).
Proof.
  intros T. unfold try_body.
  destruct T as [T | [T | [T | []]]]; rewrite <- T; simpl.
  - destruct (convert_pressure (value args) (from_unit args) (to_unit args))
      as [x | e] eqn:E.
    + left. eexists. reflexivity.
    + right. rewrite convert_pressure_scale in E.
      apply scale_through_only_ValueError in E. subst e. eexists.
      reflexivity.
  - destruct (convert_temperature (value args) (from_unit args)
                (to_unit args)) as [[x |] | e] eqn:E.
    + left. eexists. reflexivity.
    + exfalso.
      destruct (in_dec string_dec (lower (from_unit args)) valid_units)
        as [A | A];
        [|rewrite (convert_temperature_raise_from _ _ _ A) in E;
          discriminate E].
      destruct (in_dec string_dec (lower (to_unit args)) valid_units)
        as [B | B];
        [|rewrite (convert_temperature_raise_to _ _ _ B) in E;
          discriminate E].
      destruct (convert_temperature_returns (value args) _ _ A B) as [y R].
      congruence.
    + right. apply convert_temperature_only_ValueError in E. subst e.
      eexists. reflexivity.
  - destruct (convert_flow (value args) (from_unit args) (to_unit args))
      as [x | e] eqn:E.
    + left. eexists. reflexivity.
    + right. rewrite convert_flow_scale in E.
      apply scale_through_only_ValueError in E. subst e. eexists.
      reflexivity.
Qed.

(** X7: for each of the three conversion types [main] ends in one of two
    ways: it returns after printing exactly one line to standard output
    and nothing to standard error, or it prints nothing to standard
    output, one line starting with "Error: " to standard error and exits
    with status 1.  No exception escapes it. *)
Theorem main_prints_result_or_error (args : arguments) :
  In (type args) ["pressure"; "temp"; "flow"] ->
  (ending_of (main str_float fixed upper args) = Returned
   /\ stderr (main str_float fixed upper args) = []
   /\ exists line, stdout (main str_float fixed upper args) = [line])
  \/ (ending_of (main str_float fixed upper args) = SysExit 1
      /\ stdout (main str_float fixed upper args) = []
      /\ exists msg,
          stderr (main str_float fixed upper args) = ["Error: " ++ msg]).
Proof.
  intros T. unfold main.
  destruct (try_body_cases args T) as [[line E] | [msg E]]; rewrite E.
  - left. simpl. repeat split. now exists line.
  - right. simpl. repeat split. now exists msg.
Qed.

(** X8: [main] exits with status 1 exactly when a unit is not supported
    by the converter of the chosen type, and the line on standard error
    is then "Error: " followed by that converter's message; otherwise the
    exit status is 0. *)
Theorem main_exit_status (args : arguments) :
  let a := from_unit args in
  let b := to_unit args in
  let supported :=
    if String.eqb (type args) "pressure" then
      has_key (to_pa (F := F)) (lower a)
      && has_key (to_pa (F := F)) (lower b)
    else if String.eqb (type args) "temp" then
      contains valid_units (lower a) && contains valid_units (lower b)
    else
      has_key (to_lpm (F := F)) (replace "/" "" (lower a))
      && has_key (to_lpm (F := F)) (replace "/" "" (lower b)) in
  let message :=
    if String.eqb (type args) "pressure" then
      "Unsupported pressure units. Use: psi, bar, kpa, mpa, pa"
    else if String.eqb (type args) "temp" then
      "Unsupported temperature units. Use: c, f, k"
    else "Unsupported flow units. Use: gpm, lpm, m3h (or m3/h)" in
  In (type args) ["pressure"; "temp"; "flow"] ->
  (supported = true -> exit_status (main str_float fixed upper args) = 0%Z)
  /\ (supported = false ->
      exit_status (main str_float fixed upper args) = 1%Z
      /\ stderr (main str_float fixed upper args) = ["Error: " ++ message]).
Proof.
  intros a b supported message T.
  subst a b supported message. unfold exit_status, main, try_body.
  destruct T as [T | [T | [T | []]]]; rewrite <- T; simpl String.eqb;
    cbv iota.
  - unfold convert_pressure; cbv zeta.
    destruct (has_key to_pa (lower (from_unit args))) eqn:A;
      destruct (has_key to_pa (lower (to_unit args))) eqn:B;
      simpl; split; intros X; try discriminate X; try (split; reflexivity).
    unfold has_key in A, B. unfold getitem.
    destruct (get to_pa (lower (from_unit args))); [|discriminate A].
    destruct (get to_pa (lower (to_unit args))); [|discriminate B].
    reflexivity.
  - destruct (contains valid_units (lower (from_unit args))) eqn:A;
      destruct (contains valid_units (lower (to_unit args))) eqn:B;
      simpl andb; split; intros X; try discriminate X.
    + apply contains_In in A, B.
      destruct (convert_temperature_returns (value args) _ _ A B) as [y R].
      now rewrite R.
    + apply contains_not_In in B.
      rewrite (convert_temperature_raise_to _ _ _ B). split; reflexivity.
    + apply contains_not_In in A.
      rewrite (convert_temperature_raise_from _ _ _ A). split; reflexivity.
    + apply contains_not_In in A.
      rewrite (convert_temperature_raise_from _ _ _ A). split; reflexivity.
  - unfold convert_flow; cbv zeta.
    destruct (has_key to_lpm (replace "/" "" (lower (from_unit args))))
      eqn:A;
      destruct (has_key to_lpm (replace "/" "" (lower (to_unit args))))
        eqn:B;
      simpl; split; intros X; try discriminate X; try (split; reflexivity).
    unfold has_key in A, B. unfold getitem.
    destruct (get to_lpm (replace "/" "" (lower (from_unit args))));
      [|discriminate A].
    destruct (get to_lpm (replace "/" "" (lower (to_unit args))));
      [|discriminate B].
    reflexivity.
Qed.

End MainFacts.

Lemma main_prints_result_or_error_witness :
  In "temp" ["pressure"; "temp"; "flow"]
  /\ ending_of
       (main (fun _ => "212.0") (fun _ _ => "") (fun s => s)
          {| type := "temp"; value := 212%float;
             from_unit := "F"; to_unit := "kxyz" |})
     = SysExit 1
  /\ stdout
       (main (fun _ => "212.0") (fun _ _ => "") (fun s => s)
          {| type := "temp"; value := 212%float;
             from_unit := "F"; to_unit := "kxyz" |})
     = [].
Proof.
  assert (T : In "temp" ["pressure"; "temp"; "flow"]) by (simpl; tauto).
  split; [exact T|].
  destruct (main_prints_result_or_error
              (fun _ => "212.0") (fun _ _ => "") (fun s => s)
              {| type := "temp"; value := 212%float;
                 from_unit := "F"; to_unit := "kxyz" |} T)
    as [(E & _) | (E & O & _)].
  - discriminate E.
  - split; [exact E | exact O].
Defined.

Lemma main_exit_status_witness :
  In "pressure" ["pressure"; "temp"; "flow"]
  /\ exit_status
       (main (fun _ => "100.0") (fun _ _ => "") (fun s => s)
          {| type := "pressure"; value := 100%float;
             from_unit := "PSI"; to_unit := "atm" |})
     = 1%Z
  /\ stderr
       (main (fun _ => "100.0") (fun _ _ => "") (fun s => s)
          {| type := "pressure"; value := 100%float;
             from_unit := "PSI"; to_unit := "atm" |})
     = ["Error: Unsupported pressure units. Use: psi, bar, kpa, mpa, pa"].
Proof.
  assert (T : In "pressure" ["pressure"; "temp"; "flow"])
    by (simpl; tauto).
  split; [exact T|].
  exact (proj2 (main_exit_status
                  (fun _ => "100.0") (fun _ _ => "") (fun s => s)
                  {| type := "pressure"; value := 100%float;
                     from_unit := "PSI"; to_unit := "atm" |} T)
               eq_refl).
Defined.

(** X9: run without arguments the program passes its six assertions in
    binary64: it prints the progress lines and the usage examples and
    exits with status 0; no assertion fails and nothing is raised. *)
Theorem self_test_passes (check party : string) :
  self_test check party
  = {| stdout :=
         [ "Running self-test...";
           "";
           check ++ " Pressure conversions work";
           check ++ " Temperature conversions work";
           check ++ " Flow conversions work";
           "";
           "All tests passed! " ++ party;
           "";
           "Usage examples:";
           "  python converter.py pressure 100 psi bar";
           "  python converter.py temp 212 f c";
           "  python converter.py flow 50 gpm m3h" ];
       stderr := [];
       ending_of := SysExit 0 |}.
Proof. vm_compute. reflexivity. Qed.
